(** * AlwaysOnTop: the always-on-top toolbar of jitsi-meet

    A shallow embedding of [react/features/always-on-top/AlwaysOnTop.js].

    The component instance ([this.state], [this._hovered]) and the parts of
    its environment the code talks to (the external [api] event emitter, the
    [window] listeners, the [setTimeout] queue, the pending initial query,
    [console.error]) are gathered in one record, [World].  Every method of the
    class is a function [World -> World]; what the browser and the API do to
    the component is an [Event], run by [step]. *)

From Stdlib Require Import String List Bool NArith Arith Lia.
Import ListNotations.

Local Open Scope string_scope.
Local Open Scope N_scope.

(** ** JavaScript values

    The values that reach the component's state are booleans, or [undefined]
    when the API leaves a result or a payload field out. *)

Inductive jsval : Type :=
| JUndefined
| JBool (b : bool).

(** [ToBoolean]: what [if (v)], [!v] and [v ? a : b] look at. *)
Definition truthy (v : jsval) : bool :=
  match v with
  | JBool b => b
  | JUndefined => false
  end.

(** An object literal such as [{ muted: true }]; the first binding of a
    name is the one that counts. *)
Definition Obj : Type := list (string * jsval).

(** Reading a property, as the destructuring [{ muted }] does: a name the
    object does not have reads as [undefined]. *)
Fixpoint getProp (name : string) (o : Obj) : jsval :=
  match o with
  | [] => JUndefined
  | (k, v) :: rest => if String.eqb k name then v else getProp name rest
  end.

(** A default in a destructuring pattern ([audioMuted = false]) replaces
    [undefined] only. *)
Definition withDefault (dflt v : jsval) : jsval :=
  match v with
  | JUndefined => dflt
  | _ => v
  end.

(** ** [this.state] *)

Record State : Type := mkState {
  visible : jsval;
  audioMuted : jsval;
  videoMuted : jsval;
  audioEnabled : jsval;
  videoEnabled : jsval
}.

Inductive StateKey : Type :=
| Kvisible | KaudioMuted | KvideoMuted | KaudioEnabled | KvideoEnabled.

(** The partial state handed to [setState], in the order it is written. *)
Definition Partial : Type := list (StateKey * jsval).

Definition setField (k : StateKey) (v : jsval) (s : State) : State :=
  match k with
  | Kvisible => mkState v (audioMuted s) (videoMuted s) (audioEnabled s) (videoEnabled s)
  | KaudioMuted => mkState (visible s) v (videoMuted s) (audioEnabled s) (videoEnabled s)
  | KvideoMuted => mkState (visible s) (audioMuted s) v (audioEnabled s) (videoEnabled s)
  | KaudioEnabled => mkState (visible s) (audioMuted s) (videoMuted s) v (videoEnabled s)
  | KvideoEnabled => mkState (visible s) (audioMuted s) (videoMuted s) (audioEnabled s) v
  end.

Definition getField (k : StateKey) (s : State) : jsval :=
  match k with
  | Kvisible => visible s
  | KaudioMuted => audioMuted s
  | KvideoMuted => videoMuted s
  | KaudioEnabled => audioEnabled s
  | KvideoEnabled => videoEnabled s
  end.

(** The merge [setState] performs: each property of the partial state
    overwrites the one of the same name. *)
Definition assign (p : Partial) (s : State) : State :=
  fold_left (fun acc kv => setField (fst kv) (snd kv) acc) p s.

(** ** Toolbar buttons *)

(** What a click handler does. *)
Inductive Command : Type :=
| ApiExecuteCommand (name : string)
| WindowClose.

(** A button object.  The descriptors have no [toggled] property, which
    therefore reads as [undefined]; [id_] is the property [id]. *)
Record Button : Type := mkButton {
  classNames : list string;
  enabled : jsval;
  id_ : string;
  onClick : list Command;
  toggled : jsval
}.

Definition TOOLBAR_TIMEOUT : N := 4000.

(** The map of button descriptors, its properties in the order they are
    declared: the order [Object.entries] lists them in. *)
Definition toolbarButtons : list (string * Button) :=
  [ ("camera",
     mkButton ["button"; "icon-camera"] (JBool true) "toolbar_button_camera"
       [ApiExecuteCommand "toggleVideo"] JUndefined);
    ("hangup",
     mkButton ["button"; "icon-hangup"; "button_hangup"] (JBool true)
       "toolbar_button_hangup"
       [ApiExecuteCommand "hangup"; WindowClose] JUndefined);
    ("microphone",
     mkButton ["button"; "icon-microphone"] (JBool true) "toolbar_button_mute"
       [ApiExecuteCommand "toggleAudio"] JUndefined) ].

(** One [<StatelessToolbarButton>] element. *)
Record Element : Type := mkElement {
  button : Button;
  key : string;
  elementOnClick : list Command
}.

(** The handlers of the component that the toolbar element is given. *)
Inductive ToolbarHandler : Type :=
| OnMouseOver
| OnMouseOut.

(** The [<StatelessToolbar>] element [render] returns. *)
Record Rendered : Type := mkRendered {
  className : string;
  onMouseOut : ToolbarHandler;
  onMouseOver : ToolbarHandler;
  children : list Element
}.

(** The body of the [map] callback of [render]. *)
Definition renderButton (s : State) (entry : string * Button) : Element :=
  let (k, b) := entry in
  let (en, tg) :=
    if String.eqb k "microphone" then
      let en := audioEnabled s in
      (en, if truthy en then audioMuted s else JBool true)
    else if String.eqb k "camera" then
      let en := videoEnabled s in
      (en, if truthy en then videoMuted s else JBool true)
    else
      (JBool true, JBool false) in
  let updatedButton := mkButton (classNames b) en (id_ b) (onClick b) tg in
  mkElement updatedButton k (onClick b).

Definition render (s : State) : Rendered :=
  mkRendered
    ("toolbar_primary " ++ (if truthy (visible s) then "fadeIn" else "fadeOut"))
    OnMouseOut
    OnMouseOver
    (map (renderButton s) toolbarButtons).

(** The view-model of the button [k] in a rendered toolbar. *)
Definition viewModel (k : string) (r : Rendered) : option Button :=
  option_map button (find (fun e => String.eqb (key e) k) (children r)).

(** ** The component and its environment *)

(** The bound methods the component registers on the external API. *)
Inductive ApiListener : Type :=
| L_audioEnabledListener
| L_audioMutedListener
| L_videoEnabledListener
| L_videoMutedListener.

(** The bound method the component registers on [window]. *)
Inductive WindowListener : Type :=
| L_mouseMove.

Definition ApiListener_eqb (a b : ApiListener) : bool :=
  match a, b with
  | L_audioEnabledListener, L_audioEnabledListener
  | L_audioMutedListener, L_audioMutedListener
  | L_videoEnabledListener, L_videoEnabledListener
  | L_videoMutedListener, L_videoMutedListener => true
  | _, _ => false
  end.

(** The calls the component makes on [api]. *)
Inductive ApiCall : Type :=
| On (topic : string) (l : ApiListener)
| RemoveListener (topic : string) (l : ApiListener)
| IsAudioMuted
| IsVideoMuted
| IsAudioAvailable
| IsVideoAvailable.

Record World : Type := mkWorld {
  state : State;                 (* this.state *)
  _hovered : bool;               (* this._hovered *)
  mounted : bool;                (* React: mounted and not yet unmounted *)
  renders : nat;                 (* how many times React has rendered it *)
  clock : N;                     (* the time, in ms *)
  timers : list N;               (* deadlines of the pending setTimeout
                                    callbacks, oldest first *)
  apiListeners : list (string * ApiListener);
                                 (* the registrations api holds *)
  apiLog : list ApiCall;         (* every call made on api, in order *)
  windowListeners : list (string * WindowListener);
  queryPending : bool;           (* the Promise.all of componentDidMount has
                                    not settled *)
  console : list string          (* what console.error was given *)
}.

Definition set_state (s : State) (w : World) : World :=
  mkWorld s (_hovered w) (mounted w) (renders w) (clock w) (timers w)
    (apiListeners w) (apiLog w) (windowListeners w) (queryPending w) (console w).
Definition set_hovered (h : bool) (w : World) : World :=
  mkWorld (state w) h (mounted w) (renders w) (clock w) (timers w)
    (apiListeners w) (apiLog w) (windowListeners w) (queryPending w) (console w).
Definition set_mounted (m : bool) (w : World) : World :=
  mkWorld (state w) (_hovered w) m (renders w) (clock w) (timers w)
    (apiListeners w) (apiLog w) (windowListeners w) (queryPending w) (console w).
Definition set_renders (n : nat) (w : World) : World :=
  mkWorld (state w) (_hovered w) (mounted w) n (clock w) (timers w)
    (apiListeners w) (apiLog w) (windowListeners w) (queryPending w) (console w).
Definition set_clock (t : N) (w : World) : World :=
  mkWorld (state w) (_hovered w) (mounted w) (renders w) t (timers w)
    (apiListeners w) (apiLog w) (windowListeners w) (queryPending w) (console w).
Definition set_timers (ts : list N) (w : World) : World :=
  mkWorld (state w) (_hovered w) (mounted w) (renders w) (clock w) ts
    (apiListeners w) (apiLog w) (windowListeners w) (queryPending w) (console w).
Definition set_api (ls : list (string * ApiListener)) (log : list ApiCall)
    (w : World) : World :=
  mkWorld (state w) (_hovered w) (mounted w) (renders w) (clock w) (timers w)
    ls log (windowListeners w) (queryPending w) (console w).
Definition set_windowListeners (ls : list (string * WindowListener))
    (w : World) : World :=
  mkWorld (state w) (_hovered w) (mounted w) (renders w) (clock w) (timers w)
    (apiListeners w) (apiLog w) ls (queryPending w) (console w).
Definition set_queryPending (q : bool) (w : World) : World :=
  mkWorld (state w) (_hovered w) (mounted w) (renders w) (clock w) (timers w)
    (apiListeners w) (apiLog w) (windowListeners w) q (console w).
Definition set_console (c : list string) (w : World) : World :=
  mkWorld (state w) (_hovered w) (mounted w) (renders w) (clock w) (timers w)
    (apiListeners w) (apiLog w) (windowListeners w) (queryPending w) c.

(** *** The environment's operations *)

(** [setTimeout(callback, delay)].  The component has one callback and one
    delay, and the clock never runs backwards, so the queue is in deadline
    order and a deadline is all a pending timer needs to record.  The handle
    [setTimeout] returns is dropped by the code, so it is not modelled. *)
Definition setTimeout (delay : N) (w : World) : World :=
  set_timers (timers w ++ [clock w + delay]) w.

Definition sameRegistration (topic : string) (l : ApiListener)
    (r : string * ApiListener) : bool :=
  String.eqb (fst r) topic && ApiListener_eqb (snd r) l.

Fixpoint removeFirst {A : Type} (p : A -> bool) (l : list A) : list A :=
  match l with
  | [] => []
  | x :: rest => if p x then rest else x :: removeFirst p rest
  end.

(** [api.on(topic, listener)]: the event emitter appends the registration. *)
Definition api_on (topic : string) (l : ApiListener) (w : World) : World :=
  set_api (apiListeners w ++ [(topic, l)]) (apiLog w ++ [On topic l]) w.

(** [api.removeListener(topic, listener)]: the event emitter removes the most
    recent registration of that listener under that topic, and does nothing
    when there is none. *)
Definition api_removeListener (topic : string) (l : ApiListener)
    (w : World) : World :=
  set_api (rev (removeFirst (sameRegistration topic l) (rev (apiListeners w))))
    (apiLog w ++ [RemoveListener topic l]) w.

(** The four state queries; each returns a promise, settled later by the
    events [EQueryResolved] and [EQueryRejected]. *)
Definition api_query (c : ApiCall) (w : World) : World :=
  set_api (apiListeners w) (apiLog w ++ [c]) w.

Definition sameWindowRegistration (type : string) (l : WindowListener)
    (r : string * WindowListener) : bool :=
  String.eqb (fst r) type && match snd r, l with L_mouseMove, L_mouseMove => true end.

(** [window.addEventListener(type, listener)]: a listener already registered
    for the type is not added again. *)
Definition window_addEventListener (type : string) (l : WindowListener)
    (w : World) : World :=
  if existsb (sameWindowRegistration type l) (windowListeners w) then w
  else set_windowListeners (windowListeners w ++ [(type, l)]) w.

Definition window_removeEventListener (type : string) (l : WindowListener)
    (w : World) : World :=
  set_windowListeners
    (removeFirst (sameWindowRegistration type l) (windowListeners w)) w.

Definition console_error (msg : string) (w : World) : World :=
  set_console (console w ++ [msg]) w.

(** ** The methods of [AlwaysOnTop] *)

Section Component.

(** [setState] belongs to React, not to this file.  All the calls below come
    from timers, API events, native [window] events and promise callbacks,
    where React applies the update at once: it calls [componentWillUpdate]
    with the next state, replaces [this.state] and renders.  What it does
    with an update to a component that has been unmounted is left as a
    parameter: [true] when such an update is discarded, [false] when it is
    applied like any other.  React discards it (with a warning), so [true]
    is the value of the running program. *)
Variable discardsUnmountedUpdates : bool.

Definition _hideToolbarAfterTimeout (w : World) : World :=
  setTimeout TOOLBAR_TIMEOUT w.

Definition componentWillUpdate (nextState : State) (w : World) : World :=
  if negb (truthy (visible (state w))) && truthy (visible nextState)
  then _hideToolbarAfterTimeout w
  else w.

Definition setState (p : Partial) (w : World) : World :=
  if negb (mounted w) && discardsUnmountedUpdates then w
  else
    let nextState := assign p (state w) in
    let w1 := componentWillUpdate nextState w in
    set_renders (S (renders w1)) (set_state nextState w1).

(** The arrow function [_hideToolbarAfterTimeout] hands to [setTimeout]. *)
Definition hideToolbarCallback (w : World) : World :=
  if _hovered w then _hideToolbarAfterTimeout w
  else setState [(Kvisible, JBool false)] w.

Definition constructor (w : World) : World :=
  set_hovered false
    (set_state
       (mkState (JBool true) (JBool false) (JBool false) (JBool false)
          (JBool false)) w).

Definition _audioEnabledListener (status : Obj) (w : World) : World :=
  let enabled := getProp "enabled" status in
  setState [(KaudioEnabled, enabled)] w.

Definition _audioMutedListener (status : Obj) (w : World) : World :=
  let muted := getProp "muted" status in
  setState [(KaudioMuted, muted)] w.

Definition _mouseMove (w : World) : World :=
  if negb (truthy (visible (state w)))
  then setState [(Kvisible, JBool true)] w
  else w.

Definition _onMouseOver (w : World) : World := set_hovered true w.

Definition _onMouseOut (w : World) : World := set_hovered false w.

Definition _videoEnabledListener (status : Obj) (w : World) : World :=
  let enabled := getProp "enabled" status in
  setState [(KvideoMuted, enabled)] w.

Definition _videoMutedListener (status : Obj) (w : World) : World :=
  let muted := getProp "muted" status in
  setState [(KvideoMuted, muted)] w.

(** The [then] callback of the initial query: the four results, each
    defaulting to [false], become the four media fields. *)
Definition queryFulfilled (results : list jsval) (w : World) : World :=
  let audioMuted := withDefault (JBool false) (nth 0 results JUndefined) in
  let videoMuted := withDefault (JBool false) (nth 1 results JUndefined) in
  let audioEnabled := withDefault (JBool false) (nth 2 results JUndefined) in
  let videoEnabled := withDefault (JBool false) (nth 3 results JUndefined) in
  setState
    [(KaudioMuted, audioMuted); (KvideoMuted, videoMuted);
     (KaudioEnabled, audioEnabled); (KvideoEnabled, videoEnabled)] w.

(** The [catch] callback of the initial query. *)
Definition queryRejected (reason : string) (w : World) : World :=
  console_error reason w.

Definition componentDidMount (w : World) : World :=
  let w := api_on "audioMuteStatusChanged" L_audioMutedListener w in
  let w := api_on "videoMuteStatusChanged" L_videoMutedListener w in
  let w := api_on "audioEnabledStatusChanged" L_audioEnabledListener w in
  let w := api_on "videoEnabledStatusChanged" L_videoEnabledListener w in
  let w := api_query IsAudioMuted w in
  let w := api_query IsVideoMuted w in
  let w := api_query IsAudioAvailable w in
  let w := api_query IsVideoAvailable w in
  let w := set_queryPending true w in
  let w := window_addEventListener "mousemove" L_mouseMove w in
  _hideToolbarAfterTimeout w.

Definition componentWillUnmount (w : World) : World :=
  let w := api_removeListener "audioMuteStatusChanged" L_audioMutedListener w in
  let w := api_removeListener "videoMuteStatusChanged" L_videoMutedListener w in
  let w := api_removeListener "audioAvailabilityChanged" L_audioEnabledListener w in
  let w := api_removeListener "videoAvailabilityChanged" L_videoEnabledListener w in
  window_removeEventListener "mousemove" L_mouseMove w.

(** ** Events *)

Definition callApiListener (l : ApiListener) (payload : Obj) (w : World)
    : World :=
  match l with
  | L_audioEnabledListener => _audioEnabledListener payload w
  | L_audioMutedListener => _audioMutedListener payload w
  | L_videoEnabledListener => _videoEnabledListener payload w
  | L_videoMutedListener => _videoMutedListener payload w
  end.

(** The API emits [topic]: every listener registered under it is called
    with the payload, in registration order. *)
Definition emit (topic : string) (payload : Obj) (w : World) : World :=
  fold_left (fun acc r => callApiListener (snd r) payload acc)
    (filter (fun r => String.eqb (fst r) topic) (apiListeners w)) w.

(** The window dispatches an event of the given type. *)
Definition dispatch (type : string) (w : World) : World :=
  fold_left (fun acc r => match snd r with L_mouseMove => _mouseMove acc end)
    (filter (fun r => String.eqb (fst r) type) (windowListeners w)) w.

Inductive Event : Type :=
| EMouseMove                      (* the pointer moves in the window *)
| EMouseOver                      (* the pointer enters the toolbar *)
| EMouseOut                       (* the pointer leaves the toolbar *)
| EElapse (dt : N)                (* [dt] ms pass *)
| ETimerFire                      (* the event loop runs the oldest timer *)
| EApi (topic : string) (payload : Obj)
                                  (* the API emits an event *)
| EQueryResolved (results : list jsval)
                                  (* the initial query is fulfilled *)
| EQueryRejected (reason : string)
                                  (* the initial query is rejected *)
| EUnmount.                       (* React unmounts the component *)

(** One turn of the event loop.  A timer runs only once its deadline has
    passed; the toolbar's own handlers exist while the toolbar is in the
    document. *)
Definition step (e : Event) (w : World) : World :=
  match e with
  | EMouseMove => dispatch "mousemove" w
  | EMouseOver => if mounted w then _onMouseOver w else w
  | EMouseOut => if mounted w then _onMouseOut w else w
  | EElapse dt => set_clock (clock w + dt) w
  | ETimerFire =>
      match timers w with
      | [] => w
      | deadline :: rest =>
          if deadline <=? clock w
          then hideToolbarCallback (set_timers rest w)
          else w
      end
  | EApi topic payload => emit topic payload w
  | EQueryResolved results =>
      if queryPending w
      then queryFulfilled results (set_queryPending false w)
      else w
  | EQueryRejected reason =>
      if queryPending w
      then queryRejected reason (set_queryPending false w)
      else w
  | EUnmount =>
      if mounted w then set_mounted false (componentWillUnmount w) else w
  end.

Definition run (evs : list Event) (w : World) : World :=
  fold_left (fun acc e => step e acc) evs w.

(** The environment at time [t0], before the component exists. *)
Definition emptyWorld (t0 : N) : World :=
  mkWorld
    (mkState JUndefined JUndefined JUndefined JUndefined JUndefined)
    false false 0%nat t0 [] [] [] [] false [].

(** React mounts the component: constructor, first render,
    [componentDidMount]. *)
Definition mount (w : World) : World :=
  componentDidMount (set_renders 1%nat (set_mounted true (constructor w))).

(** Activation at time [t0]. *)
Definition activate (t0 : N) : World := mount (emptyWorld t0).

Definition isUnmount (e : Event) : bool :=
  match e with EUnmount => true | _ => false end.

Definition isMouseMove (e : Event) : bool :=
  match e with EMouseMove => true | _ => false end.

(** The events of a run during which the component stays mounted. *)
Definition staysMounted (evs : list Event) : bool :=
  forallb (fun e => negb (isUnmount e)) evs.

(** ** What the specification's properties talk about *)

(** The [enabled] and [toggled] flags of the button [k] as rendered from the
    state [s]. *)
Definition flags (k : string) (s : State) : option (jsval * jsval) :=
  option_map (fun b => (enabled b, toggled b)) (viewModel k (render s)).

(** The (topic, listener) pairs of the [api.on] calls in a log. *)
Fixpoint subscriptions (log : list ApiCall) : list (string * ApiListener) :=
  match log with
  | [] => []
  | On topic l :: rest => (topic, l) :: subscriptions rest
  | _ :: rest => subscriptions rest
  end.

(** The (topic, listener) pairs of the [api.removeListener] calls in a log. *)
Fixpoint removals (log : list ApiCall) : list (string * ApiListener) :=
  match log with
  | [] => []
  | RemoveListener topic l :: rest => (topic, l) :: removals rest
  | _ :: rest => removals rest
  end.

(** A partial state that names media fields only. *)
Definition mediaOnly (p : Partial) : bool :=
  forallb (fun kv => match fst kv with Kvisible => false | _ => true end) p.

(** [n] timer periods in a row: the delay passes, the timer runs. *)
Fixpoint periods (n : nat) : list Event :=
  match n with
  | O => []
  | S m => EElapse TOOLBAR_TIMEOUT :: ETimerFire :: periods m
  end.

(** The invariant of the hide-timer queue: at most one timer is pending,
    none while the toolbar is hidden, and none is due later than one full
    delay from now. *)
Definition timerInv (w : World) : Prop :=
  (length (timers w) <= 1)%nat /\
  (truthy (visible (state w)) = false -> timers w = []) /\
  Forall (fun deadline => deadline <= clock w + TOOLBAR_TIMEOUT) (timers w).

(** The component is mounted and listens to the pointer. *)
Definition active (w : World) : Prop :=
  mounted w = true /\ windowListeners w = [("mousemove", L_mouseMove)].

(** The toolbar is hidden and no timer is pending. *)
Definition hidden (w : World) : Prop :=
  visible (state w) = JBool false /\ timers w = [].

(** [w'] differs from [w] in nothing the visibility machine reads. *)
Definition frame (w w' : World) : Prop :=
  visible (state w') = visible (state w) /\
  timers w' = timers w /\
  clock w' = clock w /\
  mounted w' = mounted w /\
  windowListeners w' = windowListeners w /\
  _hovered w' = _hovered w.

(** [visible] holds a boolean. *)
Definition visibleIsBool (w : World) : Prop :=
  exists b : bool, visible (state w) = JBool b.

(** A visible toolbar has a hide-timer pending. *)
Definition shownWithTimer (w : World) : Prop :=
  truthy (visible (state w)) = true -> timers w <> [].

(** The registrations [componentDidMount] makes on the API. *)
Definition mountRegistrations : list (string * ApiListener) :=
  [("audioMuteStatusChanged", L_audioMutedListener);
   ("videoMuteStatusChanged", L_videoMutedListener);
   ("audioEnabledStatusChanged", L_audioEnabledListener);
   ("videoEnabledStatusChanged", L_videoEnabledListener)].

(** ** Auxiliary lemmas *)

Lemma frame_refl (w : World) : frame w w.
Proof. repeat split. Qed.

Lemma frame_trans (w1 w2 w3 : World) :
  frame w1 w2 -> frame w2 w3 -> frame w1 w3.
Proof.
  unfold frame. intros (a1 & a2 & a3 & a4 & a5 & a6) (b1 & b2 & b3 & b4 & b5 & b6).
  repeat split; congruence.
Qed.

Lemma assign_mediaOnly_visible (p : Partial) :
  mediaOnly p = true -> forall s, visible (assign p s) = visible s.
Proof.
  unfold assign. induction p as [| [k v] p IH]; intros Hp s; simpl in *.
  - reflexivity.
  - apply andb_true_iff in Hp. destruct Hp as [Hk Hp].
    rewrite (IH Hp). destruct k; simpl in *; congruence.
Qed.

(** A [setState] that names media fields only leaves the visibility machine
    alone. *)
Lemma setState_media_frame (p : Partial) (w : World) :
  mediaOnly p = true -> frame w (setState p w).
Proof.
  intros Hp. unfold setState.
  destruct (negb (mounted w) && discardsUnmountedUpdates).
  - apply frame_refl.
  - unfold componentWillUpdate.
    rewrite (assign_mediaOnly_visible p Hp (state w)), andb_negb_l.
    repeat split. simpl. apply (assign_mediaOnly_visible p Hp).
Qed.

Lemma callApiListener_frame (l : ApiListener) (payload : Obj) (w : World) :
  frame w (callApiListener l payload w).
Proof. destruct l; apply setState_media_frame; reflexivity. Qed.

Lemma emit_frame (topic : string) (payload : Obj) (w : World) :
  frame w (emit topic payload w).
Proof.
  unfold emit.
  generalize (filter (fun r : string * ApiListener => String.eqb (fst r) topic)
                (apiListeners w)).
  intros ls. revert w.
  induction ls as [| r ls IH]; intros w; simpl.
  - apply frame_refl.
  - eapply frame_trans; [apply callApiListener_frame | apply IH].
Qed.

Lemma queryFulfilled_frame (results : list jsval) (w : World) :
  frame w (queryFulfilled results w).
Proof. apply setState_media_frame. reflexivity. Qed.

Lemma componentWillUnmount_keeps (w : World) :
  state (componentWillUnmount w) = state w /\
  timers (componentWillUnmount w) = timers w /\
  clock (componentWillUnmount w) = clock w /\
  _hovered (componentWillUnmount w) = _hovered w /\
  mounted (componentWillUnmount w) = mounted w.
Proof. repeat split. Qed.

Lemma timerInv_frame (w w' : World) :
  frame w w' -> timerInv w -> timerInv w'.
Proof.
  unfold frame, timerInv. intros (Hv & Ht & Hc & _) (H1 & H2 & H3).
  rewrite Hv, Ht, Hc. auto.
Qed.

Lemma timers_at_most_one (w : World) (deadline : N) (rest : list N) :
  timerInv w -> timers w = deadline :: rest ->
  rest = [] /\ truthy (visible (state w)) = true /\
  deadline <= clock w + TOOLBAR_TIMEOUT.
Proof.
  intros (H1 & H2 & H3) Ht. rewrite Ht in *. repeat split.
  - destruct rest; [reflexivity | simpl in H1; lia].
  - destruct (truthy (visible (state w))); [reflexivity |].
    specialize (H2 eq_refl). discriminate.
  - inversion H3; assumption.
Qed.

Lemma mouseMove_timerInv (w : World) : timerInv w -> timerInv (_mouseMove w).
Proof.
  intros Hinv. unfold _mouseMove.
  destruct (truthy (visible (state w))) eqn:Hvis; simpl; [assumption |].
  unfold setState.
  destruct (negb (mounted w) && discardsUnmountedUpdates); [assumption |].
  unfold componentWillUpdate. rewrite Hvis. simpl.
  destruct Hinv as (_ & H2 & _).
  unfold timerInv. simpl. rewrite (H2 Hvis). simpl. repeat split.
  - lia.
  - discriminate.
  - constructor; [lia | constructor].
Qed.

Lemma dispatch_timerInv (type : string) (w : World) :
  timerInv w -> timerInv (dispatch type w).
Proof.
  unfold dispatch.
  generalize (filter (fun r : string * WindowListener => String.eqb (fst r) type)
                (windowListeners w)).
  intros ls. revert w.
  induction ls as [| [t []] ls IH]; intros w Hinv; simpl.
  - assumption.
  - apply IH, mouseMove_timerInv, Hinv.
Qed.

Lemma setState_env (p : Partial) (w : World) :
  mounted (setState p w) = mounted w /\
  windowListeners (setState p w) = windowListeners w /\
  clock (setState p w) = clock w /\
  _hovered (setState p w) = _hovered w.
Proof.
  unfold setState.
  destruct (negb (mounted w) && discardsUnmountedUpdates); [repeat split |].
  unfold componentWillUpdate.
  destruct (negb (truthy (visible (state w))) &&
            truthy (visible (assign p (state w)))); repeat split.
Qed.

Lemma hideToolbarCallback_timerInv (w : World) :
  timers w = [] -> truthy (visible (state w)) = true ->
  timerInv (hideToolbarCallback w).
Proof.
  intros Ht Hvis. unfold hideToolbarCallback.
  destruct (_hovered w).
  - unfold timerInv, _hideToolbarAfterTimeout, setTimeout. simpl. rewrite Ht.
    simpl. repeat split.
    + lia.
    + congruence.
    + constructor; [lia | constructor].
  - unfold setState.
    destruct (negb (mounted w) && discardsUnmountedUpdates).
    + unfold timerInv. rewrite Ht. simpl. repeat split; auto.
    + unfold componentWillUpdate. simpl. rewrite andb_false_r.
      unfold timerInv. simpl. rewrite Ht. simpl. repeat split; auto.
Qed.

Lemma step_timerInv (e : Event) (w : World) :
  timerInv w -> timerInv (step e w).
Proof.
  intros Hinv. destruct e; simpl.
  - apply dispatch_timerInv, Hinv.
  - destruct (mounted w); exact Hinv.
  - destruct (mounted w); exact Hinv.
  - destruct Hinv as (H1 & H2 & H3). unfold timerInv. simpl.
    repeat split; auto.
    eapply Forall_impl; [| exact H3]. simpl. intros a Ha. lia.
  - destruct (timers w) as [| deadline rest] eqn:Ht; [exact Hinv |].
    destruct (deadline <=? clock w); [| exact Hinv].
    destruct (timers_at_most_one w deadline rest Hinv Ht) as (-> & Hvis & _).
    apply hideToolbarCallback_timerInv; [reflexivity | exact Hvis].
  - eapply timerInv_frame; [apply emit_frame | exact Hinv].
  - destruct (queryPending w); [| exact Hinv].
    eapply timerInv_frame; [apply queryFulfilled_frame | exact Hinv].
  - destruct (queryPending w); exact Hinv.
  - destruct (mounted w); exact Hinv.
Qed.

Lemma run_app (evs1 evs2 : list Event) (w : World) :
  run (evs1 ++ evs2) w = run evs2 (run evs1 w).
Proof. unfold run. apply fold_left_app. Qed.

Lemma run_timerInv (evs : list Event) (w : World) :
  timerInv w -> timerInv (run evs w).
Proof.
  revert w. induction evs as [| e evs IH]; intros w Hinv; simpl.
  - exact Hinv.
  - apply IH, step_timerInv, Hinv.
Qed.

Lemma activate_timerInv (t0 : N) : timerInv (activate t0).
Proof.
  unfold timerInv. simpl. repeat split.
  - lia.
  - discriminate.
  - constructor; [unfold TOOLBAR_TIMEOUT; lia | constructor].
Qed.

Lemma activate_active (t0 : N) : active (activate t0).
Proof. split; reflexivity. Qed.

Lemma mouseMove_active (w : World) : active w -> active (_mouseMove w).
Proof.
  unfold active, _mouseMove. intros [Hm Hw].
  destruct (negb (truthy (visible (state w)))); [| auto].
  destruct (setState_env [(Kvisible, JBool true)] w) as (E1 & E2 & _).
  rewrite E1, E2. auto.
Qed.

Lemma dispatch_mousemove_active (w : World) :
  active w -> dispatch "mousemove" w = _mouseMove w.
Proof. intros [_ Hw]. unfold dispatch. rewrite Hw. reflexivity. Qed.

Lemma active_frame (w w' : World) : frame w w' -> active w -> active w'.
Proof.
  unfold frame, active. intros (_ & _ & _ & Hm & Hw & _) [H1 H2].
  rewrite Hm, Hw. auto.
Qed.

Lemma step_active (e : Event) (w : World) :
  isUnmount e = false -> active w -> active (step e w).
Proof.
  intros He Hact. destruct e; simpl; try discriminate.
  - rewrite (dispatch_mousemove_active w Hact). apply mouseMove_active, Hact.
  - destruct (mounted w); exact Hact.
  - destruct (mounted w); exact Hact.
  - exact Hact.
  - destruct (timers w) as [| deadline rest]; [exact Hact |].
    destruct (deadline <=? clock w); [| exact Hact].
    unfold hideToolbarCallback. simpl.
    destruct (_hovered w); [exact Hact |].
    destruct (setState_env [(Kvisible, JBool false)] (set_timers rest w))
      as (E1 & E2 & _).
    unfold active. rewrite E1, E2. exact Hact.
  - eapply active_frame; [apply emit_frame | exact Hact].
  - destruct (queryPending w); [| exact Hact].
    eapply active_frame; [apply queryFulfilled_frame | exact Hact].
  - destruct (queryPending w); exact Hact.
Qed.

Lemma run_active (evs : list Event) (w : World) :
  staysMounted evs = true -> active w -> active (run evs w).
Proof.
  revert w. induction evs as [| e evs IH]; intros w Hevs Hact; simpl in *.
  - exact Hact.
  - apply andb_true_iff in Hevs. destruct Hevs as [He Hevs].
    apply IH; [exact Hevs |].
    apply step_active; [| exact Hact].
    destruct (isUnmount e); [discriminate | reflexivity].
Qed.

(** What holds after any run that starts at activation and does not unmount
    the component. *)
Lemma reachable_inv (t0 : N) (evs : list Event) :
  staysMounted evs = true ->
  active (run evs (activate t0)) /\ timerInv (run evs (activate t0)).
Proof.
  intros Hevs. split.
  - apply run_active; [exact Hevs | apply activate_active].
  - apply run_timerInv, activate_timerInv.
Qed.

Lemma hidden_frame (w w' : World) : frame w w' -> hidden w -> hidden w'.
Proof.
  unfold frame, hidden. intros (Hv & Ht & _) [H1 H2]. rewrite Hv, Ht. auto.
Qed.

(** Nothing but a pointer move brings a hidden toolbar back. *)
Lemma step_hidden (e : Event) (w : World) :
  isMouseMove e = false -> hidden w -> hidden (step e w).
Proof.
  intros He Hh. destruct e; simpl; try discriminate.
  - destruct (mounted w); exact Hh.
  - destruct (mounted w); exact Hh.
  - exact Hh.
  - destruct Hh as [Hv Ht]. rewrite Ht. split; assumption.
  - eapply hidden_frame; [apply emit_frame | exact Hh].
  - destruct (queryPending w); [| exact Hh].
    eapply hidden_frame; [apply queryFulfilled_frame | exact Hh].
  - destruct (queryPending w); exact Hh.
  - destruct (mounted w); exact Hh.
Qed.

Lemma run_hidden (evs : list Event) (w : World) :
  forallb (fun e => negb (isMouseMove e)) evs = true ->
  hidden w -> hidden (run evs w).
Proof.
  revert w. induction evs as [| e evs IH]; intros w Hevs Hh; simpl in *.
  - exact Hh.
  - apply andb_true_iff in Hevs. destruct Hevs as [He Hevs].
    apply IH; [exact Hevs |].
    apply step_hidden; [| exact Hh].
    destruct (isMouseMove e); [discriminate | reflexivity].
Qed.

(** One timer period with the pointer over the toolbar: the timer runs and
    is replaced by a fresh one; nothing else changes. *)
Lemma one_period_hovered (w : World) (deadline : N) :
  _hovered w = true -> timers w = [deadline] ->
  deadline <= clock w + TOOLBAR_TIMEOUT ->
  run (periods 1) w =
  set_timers [clock w + TOOLBAR_TIMEOUT + TOOLBAR_TIMEOUT]
    (set_clock (clock w + TOOLBAR_TIMEOUT) w).
Proof.
  intros Hh Ht Hd. destruct w; simpl in *. subst.
  apply N.leb_le in Hd. rewrite Hd. reflexivity.
Qed.

Lemma periods_hovered (n : nat) :
  forall (w : World) (deadline : N),
    _hovered w = true -> timers w = [deadline] ->
    deadline <= clock w + TOOLBAR_TIMEOUT ->
    run (periods (S n)) w =
    set_timers [clock w + N.of_nat (S n) * TOOLBAR_TIMEOUT + TOOLBAR_TIMEOUT]
      (set_clock (clock w + N.of_nat (S n) * TOOLBAR_TIMEOUT) w).
Proof.
  induction n as [| n IH]; intros w deadline Hh Ht Hd.
  - rewrite (one_period_hovered w deadline Hh Ht Hd).
    change (N.of_nat 1) with 1. rewrite N.mul_1_l. reflexivity.
  - change (periods (S (S n))) with ((periods 1 ++ periods (S n))%list).
    rewrite run_app, (one_period_hovered w deadline Hh Ht Hd).
    erewrite IH; [| exact Hh | reflexivity | simpl; lia].
    rewrite (Nat2N.inj_succ (S n)). unfold TOOLBAR_TIMEOUT.
    destruct w; unfold set_timers, set_clock; simpl.
    f_equal; [lia | f_equal; lia].
Qed.

(** *** After the unmounting, where React discards the updates *)

Lemma setState_unmounted (p : Partial) (w : World) :
  discardsUnmountedUpdates = true -> mounted w = false -> setState p w = w.
Proof. intros Hd Hm. unfold setState. rewrite Hd, Hm. reflexivity. Qed.

Lemma emit_unmounted (topic : string) (payload : Obj) (w : World) :
  discardsUnmountedUpdates = true -> mounted w = false ->
  emit topic payload w = w.
Proof.
  intros Hd Hm. unfold emit.
  generalize (filter (fun r : string * ApiListener => String.eqb (fst r) topic)
                (apiListeners w)).
  intros ls. induction ls as [| r ls IH]; simpl; [reflexivity |].
  replace (callApiListener (snd r) payload w) with w; [exact IH |].
  symmetry. destruct (snd r); apply setState_unmounted; assumption.
Qed.

Lemma dispatch_unmounted (type : string) (w : World) :
  discardsUnmountedUpdates = true -> mounted w = false -> dispatch type w = w.
Proof.
  intros Hd Hm. unfold dispatch.
  generalize (filter (fun r : string * WindowListener => String.eqb (fst r) type)
                (windowListeners w)).
  intros ls. induction ls as [| [t []] ls IH]; simpl; [reflexivity |].
  replace (_mouseMove w) with w; [exact IH |].
  unfold _mouseMove. destruct (negb (truthy (visible (state w))));
    [symmetry; apply setState_unmounted; assumption | reflexivity].
Qed.

(** No event changes the state, the hover flag or the render count of an
    unmounted component, and none mounts it again. *)
Lemma step_unmounted (e : Event) (w : World) :
  discardsUnmountedUpdates = true -> mounted w = false ->
  mounted (step e w) = false /\ state (step e w) = state w /\
  _hovered (step e w) = _hovered w /\ renders (step e w) = renders w.
Proof.
  intros Hd Hm. destruct e; simpl.
  - rewrite (dispatch_unmounted _ w Hd Hm). auto.
  - rewrite Hm. auto.
  - rewrite Hm. auto.
  - auto.
  - destruct (timers w) as [| deadline rest]; [auto |].
    destruct (deadline <=? clock w); [| auto].
    unfold hideToolbarCallback. simpl.
    destruct (_hovered w) eqn:Hh; [simpl; auto |].
    rewrite (setState_unmounted _ (set_timers rest w) Hd Hm). simpl. auto.
  - rewrite (emit_unmounted _ _ w Hd Hm). auto.
  - destruct (queryPending w); [| auto].
    unfold queryFulfilled.
    rewrite (setState_unmounted _ (set_queryPending false w) Hd Hm).
    simpl. auto.
  - destruct (queryPending w); simpl; auto.
  - rewrite Hm. auto.
Qed.

Lemma run_unmounted (evs : list Event) (w : World) :
  discardsUnmountedUpdates = true -> mounted w = false ->
  mounted (run evs w) = false /\ state (run evs w) = state w /\
  _hovered (run evs w) = _hovered w /\ renders (run evs w) = renders w.
Proof.
  intros Hd. revert w. induction evs as [| e evs IH]; intros w Hm; simpl.
  - auto.
  - destruct (step_unmounted e w Hd Hm) as (Hm1 & Hs1 & Hh1 & Hr1).
    destruct (IH (step e w) Hm1) as (Hm2 & Hs2 & Hh2 & Hr2).
    repeat split; congruence.
Qed.

(** ** The media state and its listeners *)

(** C1 (the code departs from the claim): the listener of the video
    availability event does not update [videoEnabled].  At activation, the
    API emits [videoEnabledStatusChanged] with [{ enabled: true }]: the one
    listener registered for it runs, [videoEnabled] keeps its old value
    [false], and it is [videoMuted] that goes from [false] to [true]. *)
Theorem videoEnabledListener_writes_videoMuted :
  let w := activate 0 in
  let w' := step (EApi "videoEnabledStatusChanged" [("enabled", JBool true)]) w in
  w' = _videoEnabledListener [("enabled", JBool true)] w /\
  state w = mkState (JBool true) (JBool false) (JBool false) (JBool false)
              (JBool false) /\
  state w' = mkState (JBool true) (JBool false) (JBool true) (JBool false)
               (JBool false).
Proof. vm_compute. repeat split. Qed.

(** C2 (the code departs from the claim): deactivation does not remove the
    registrations activation made.  [componentDidMount] subscribes the two
    availability listeners under [audioEnabledStatusChanged] and
    [videoEnabledStatusChanged]; [componentWillUnmount] names
    [audioAvailabilityChanged] and [videoAvailabilityChanged] instead, so the
    API still holds both listeners after deactivation. *)
Theorem unmount_leaves_availability_listeners (t0 : N) :
  let u := step EUnmount (activate t0) in
  subscriptions (apiLog u) =
    [("audioMuteStatusChanged", L_audioMutedListener);
     ("videoMuteStatusChanged", L_videoMutedListener);
     ("audioEnabledStatusChanged", L_audioEnabledListener);
     ("videoEnabledStatusChanged", L_videoEnabledListener)] /\
  removals (apiLog u) =
    [("audioMuteStatusChanged", L_audioMutedListener);
     ("videoMuteStatusChanged", L_videoMutedListener);
     ("audioAvailabilityChanged", L_audioEnabledListener);
     ("videoAvailabilityChanged", L_videoEnabledListener)] /\
  apiListeners u =
    [("audioEnabledStatusChanged", L_audioEnabledListener);
     ("videoEnabledStatusChanged", L_videoEnabledListener)].
Proof. vm_compute. repeat split. Qed.

(** C8 (amended): a listener stores the payload field as it receives it.
    While the component is mounted, each of the mute and audio-availability
    listeners leaves in its field exactly what reading the payload gives, a
    boolean as it is and [undefined] for a field that is missing or
    undefined; the video-availability listener likewise writes what it read
    into a media field.  Only the initial query replaces [undefined] by
    [false]. *)
Theorem listeners_store_payload_as_received (status : Obj) (w : World) :
  mounted w = true ->
  audioMuted (state (_audioMutedListener status w)) = getProp "muted" status /\
  videoMuted (state (_videoMutedListener status w)) = getProp "muted" status /\
  audioEnabled (state (_audioEnabledListener status w))
    = getProp "enabled" status /\
  (exists k, k <> Kvisible /\
     getField k (state (_videoEnabledListener status w))
       = getProp "enabled" status) /\
  (getProp "muted" [] = JUndefined /\
   getProp "muted" [("muted", JUndefined)] = JUndefined) /\
  state (queryFulfilled [JUndefined; JUndefined; JUndefined; JUndefined] w)
    = assign [(KaudioMuted, JBool false); (KvideoMuted, JBool false);
              (KaudioEnabled, JBool false); (KvideoEnabled, JBool false)]
        (state w).
Proof.
  intros Hm.
  unfold _audioMutedListener, _videoMutedListener, _audioEnabledListener,
    _videoEnabledListener, queryFulfilled, setState.
  rewrite Hm. simpl.
  repeat split.
  exists KvideoMuted. split; [discriminate | reflexivity].
Qed.

(** C7: a rejected initial query is logged and updates nothing.  In every
    world the rejection leaves [this.state] and the render count as they
    are; right after activation it adds the reason to the console, the four
    media fields are still [false], and the microphone and the camera are
    both rendered with [enabled] false and [toggled] true. *)
Theorem query_rejection_keeps_defaults (t0 : N) (reason : string) :
  (forall w, state (step (EQueryRejected reason) w) = state w /\
             renders (step (EQueryRejected reason) w) = renders w) /\
  let w' := step (EQueryRejected reason) (activate t0) in
  console w' = [reason] /\
  state w' = mkState (JBool true) (JBool false) (JBool false) (JBool false)
               (JBool false) /\
  flags "microphone" (state w') = Some (JBool false, JBool true) /\
  flags "camera" (state w') = Some (JBool false, JBool true).
Proof.
  split.
  - intros w. simpl. destruct (queryPending w); split; reflexivity.
  - vm_compute. repeat split.
Qed.

(** ** The rendered buttons *)

(** C4: the derivation table.  For every media state (and whatever the
    visibility), the microphone is rendered with [enabled = audioEnabled]
    and [toggled = audioMuted] when the audio is enabled and [true] when it
    is not, the camera likewise from the video fields, and the hangup button
    with [enabled = true] and [toggled = false]. *)
Theorem derivation_table (v am vm ae ve : bool) :
  let s := mkState (JBool v) (JBool am) (JBool vm) (JBool ae) (JBool ve) in
  flags "microphone" s = Some (JBool ae, JBool (if ae then am else true)) /\
  flags "camera" s = Some (JBool ve, JBool (if ve then vm else true)) /\
  flags "hangup" s = Some (JBool true, JBool false).
Proof.
  destruct ae, ve; vm_compute; repeat split.
Qed.

(** C10: whatever the state, the rendered toolbar has exactly three
    buttons, in the order in which the descriptors are declared: camera,
    hangup, microphone. *)
Theorem render_button_order (s : State) :
  map key (children (render s)) = ["camera"; "hangup"; "microphone"] /\
  map key (children (render s)) = map fst toolbarButtons.
Proof. split; vm_compute; reflexivity. Qed.

(** ** The visibility machine *)

(** C9: at most one hide-timer is pending, after any sequence of events
    from activation on (the unmounting included). *)
Theorem at_most_one_hide_timer (t0 : N) (evs : list Event) :
  (length (timers (run evs (activate t0))) <= 1)%nat.
Proof.
  destruct (run_timerInv evs (activate t0) (activate_timerInv t0)) as [H _].
  exact H.
Qed.

(** C6: the pointer moves, in a world reached from activation while the
    component stays mounted.  If the toolbar is hidden no timer is pending,
    and the move makes it visible, arms one timer due [TOOLBAR_TIMEOUT] from
    now and renders once; nothing else changes.  If the toolbar is visible
    the move changes nothing at all: no state write, no render, no timer. *)
Theorem pointer_move (t0 : N) (evs : list Event) :
  staysMounted evs = true ->
  let w := run evs (activate t0) in
  (truthy (visible (state w)) = false ->
     timers w = [] /\
     step EMouseMove w =
       set_renders (S (renders w))
         (set_state (setField Kvisible (JBool true) (state w))
            (set_timers [clock w + TOOLBAR_TIMEOUT] w))) /\
  (truthy (visible (state w)) = true -> step EMouseMove w = w).
Proof.
  intros Hevs w.
  destruct (reachable_inv t0 evs Hevs) as [Hact Hinv]. fold w in Hact, Hinv.
  simpl step. rewrite (dispatch_mousemove_active w Hact).
  unfold _mouseMove. split; intros Hvis; rewrite Hvis; simpl.
  - destruct Hinv as (_ & H2 & _). specialize (H2 Hvis).
    split; [exact H2 |].
    destruct Hact as [Hm _].
    unfold setState, componentWillUpdate. rewrite Hm, Hvis. simpl.
    unfold _hideToolbarAfterTimeout, setTimeout. rewrite H2. reflexivity.
  - reflexivity.
Qed.

(** C5: the hide-timer, in a world reached from activation while the
    component stays mounted.  A pending timer is the only one, the toolbar
    is visible while it is pending, it is due at most [TOOLBAR_TIMEOUT] from
    now, and it does not run before it is due.  When it runs with the
    pointer over the toolbar, the toolbar stays visible and the timer is
    replaced by one fresh timer, due [TOOLBAR_TIMEOUT] later; this repeats
    for any number of periods.  When it runs with the pointer elsewhere, the
    toolbar is hidden and no timer is armed, and this lasts through any
    events other than a pointer move. *)
Theorem hide_timer_fires (t0 : N) (evs : list Event)
    (deadline : N) (rest : list N) :
  staysMounted evs = true ->
  let w := run evs (activate t0) in
  timers w = deadline :: rest ->
  (rest = [] /\ truthy (visible (state w)) = true /\
   deadline <= clock w + TOOLBAR_TIMEOUT) /\
  (clock w < deadline -> step ETimerFire w = w) /\
  (deadline <= clock w -> _hovered w = true ->
     step ETimerFire w = set_timers [clock w + TOOLBAR_TIMEOUT] w) /\
  (_hovered w = true -> forall n : nat,
     run (periods (S n)) w =
     set_timers [clock w + N.of_nat (S n) * TOOLBAR_TIMEOUT + TOOLBAR_TIMEOUT]
       (set_clock (clock w + N.of_nat (S n) * TOOLBAR_TIMEOUT) w)) /\
  (deadline <= clock w -> _hovered w = false ->
     step ETimerFire w =
       set_renders (S (renders w))
         (set_state (setField Kvisible (JBool false) (state w))
            (set_timers [] w)) /\
     forall evs' : list Event,
       forallb (fun e => negb (isMouseMove e)) evs' = true ->
       hidden (run evs' (step ETimerFire w))).
Proof.
  intros Hevs w Ht.
  destruct (reachable_inv t0 evs Hevs) as [Hact Hinv]. fold w in Hact, Hinv.
  destruct (timers_at_most_one w deadline rest Hinv Ht) as (-> & Hvis & Hd).
  split; [auto |].
  assert (Hfire_hovered : deadline <= clock w -> _hovered w = true ->
            step ETimerFire w = set_timers [clock w + TOOLBAR_TIMEOUT] w).
  { intros Hdue Hh. simpl. rewrite Ht.
    apply N.leb_le in Hdue. rewrite Hdue.
    unfold hideToolbarCallback. simpl. rewrite Hh. reflexivity. }
  assert (Hfire_away : deadline <= clock w -> _hovered w = false ->
            step ETimerFire w =
            set_renders (S (renders w))
              (set_state (setField Kvisible (JBool false) (state w))
                 (set_timers [] w))).
  { intros Hdue Hh. simpl. rewrite Ht.
    apply N.leb_le in Hdue. rewrite Hdue.
    unfold hideToolbarCallback. simpl. rewrite Hh.
    destruct Hact as [Hm _].
    unfold setState, componentWillUpdate. simpl. rewrite Hm, Hvis. reflexivity. }
  split; [| split; [| split; [| split]]].
  - intros Hearly. simpl. rewrite Ht.
    apply N.leb_gt in Hearly. rewrite Hearly. reflexivity.
  - exact Hfire_hovered.
  - intros Hh n. apply (periods_hovered n w deadline Hh Ht Hd).
  - apply Hfire_away; assumption.
  - intros evs' Hevs'. apply run_hidden; [assumption |].
    rewrite Hfire_away by assumption. split; reflexivity.
Qed.

(** C3 (amended): unmounting does not cancel the hide-timer, yet the
    visibility is never changed after it.  For a mounted component with a
    pending timer, [componentWillUnmount] leaves the timer queue, the state
    and the hover flag as they are.  Once the deadline has passed the timer
    runs as it would have: with the pointer flag set it arms a fresh timer,
    due [TOOLBAR_TIMEOUT] later, and otherwise it calls [setState] with
    [{ visible: false }] on the unmounted component.  React discarding the
    updates to an unmounted component, no event that follows the unmounting,
    a timer run included, changes [visible], any other field of the state,
    the hover flag or the render count. *)
Theorem unmount_keeps_hide_timer (w : World) (deadline : N) (rest : list N)
    (dt : N) :
  mounted w = true ->
  timers w = deadline :: rest ->
  deadline <= clock w + dt ->
  let u := step EUnmount w in
  let late := step (EElapse dt) u in
  (mounted u = false /\ timers u = timers w /\ state u = state w /\
   _hovered u = _hovered w) /\
  (_hovered w = true ->
     step ETimerFire late =
     set_timers (rest ++ [clock w + dt + TOOLBAR_TIMEOUT]) late) /\
  (_hovered w = false ->
     step ETimerFire late =
     setState [(Kvisible, JBool false)] (set_timers rest late)) /\
  (discardsUnmountedUpdates = true ->
   forall evs : list Event,
     visible (state (run evs u)) = visible (state w) /\
     state (run evs u) = state w /\
     _hovered (run evs u) = _hovered w /\
     renders (run evs u) = renders w).
Proof.
  intros Hm Ht Hd u late.
  assert (Hu : mounted u = false /\ timers u = timers w /\
               state u = state w /\ _hovered u = _hovered w /\
               renders u = renders w).
  { unfold u. simpl. rewrite Hm. simpl. auto. }
  destruct Hu as (Hmu & Htu & Hsu & Hhu & Hru).
  split; [auto |].
  assert (Hdue : (deadline <=? clock w + dt) = true) by (apply N.leb_le; exact Hd).
  split; [| split].
  - intros Hh. unfold late, u. simpl. rewrite Hm. simpl. rewrite Ht, Hdue.
    unfold hideToolbarCallback. simpl. rewrite Hh. reflexivity.
  - intros Hh. unfold late, u. simpl. rewrite Hm. simpl. rewrite Ht, Hdue.
    unfold hideToolbarCallback. simpl. rewrite Hh. reflexivity.
  - intros Hdiscards evs.
    destruct (run_unmounted evs u Hdiscards Hmu) as (_ & Hs & Hh & Hr).
    rewrite Hs, Hh, Hr, Hsu, Hhu, Hru. auto.
Qed.

(** ** Further properties of the component *)

(** *** More invariants *)

Lemma setState_registry (p : Partial) (w : World) :
  apiListeners (setState p w) = apiListeners w.
Proof.
  unfold setState.
  destruct (negb (mounted w) && discardsUnmountedUpdates); [reflexivity |].
  unfold componentWillUpdate.
  destruct (negb (truthy (visible (state w))) &&
            truthy (visible (assign p (state w)))); reflexivity.
Qed.

Lemma emit_registry (topic : string) (payload : Obj) (w : World) :
  apiListeners (emit topic payload w) = apiListeners w.
Proof.
  unfold emit.
  generalize (filter (fun r : string * ApiListener => String.eqb (fst r) topic)
                (apiListeners w)).
  intros ls. revert w.
  induction ls as [| r ls IH]; intros w; simpl.
  - reflexivity.
  - rewrite IH. destruct (snd r); apply setState_registry.
Qed.

Lemma dispatch_registry (type : string) (w : World) :
  apiListeners (dispatch type w) = apiListeners w.
Proof.
  unfold dispatch.
  generalize (filter (fun r : string * WindowListener => String.eqb (fst r) type)
                (windowListeners w)).
  intros ls. revert w.
  induction ls as [| [t []] ls IH]; intros w; simpl.
  - reflexivity.
  - rewrite IH. unfold _mouseMove.
    destruct (negb (truthy (visible (state w))));
      [apply setState_registry | reflexivity].
Qed.

(** Nothing but the unmounting changes what the API has registered. *)
Lemma step_registry (e : Event) (w : World) :
  isUnmount e = false -> apiListeners (step e w) = apiListeners w.
Proof.
  intros He. destruct e; simpl; try discriminate.
  - apply dispatch_registry.
  - destruct (mounted w); reflexivity.
  - destruct (mounted w); reflexivity.
  - reflexivity.
  - destruct (timers w) as [| deadline rest]; [reflexivity |].
    destruct (deadline <=? clock w); [| reflexivity].
    unfold hideToolbarCallback. simpl.
    destruct (_hovered w); [reflexivity |].
    rewrite setState_registry. reflexivity.
  - apply emit_registry.
  - destruct (queryPending w); [| reflexivity].
    unfold queryFulfilled. rewrite setState_registry. reflexivity.
  - destruct (queryPending w); reflexivity.
Qed.

Lemma run_registry (evs : list Event) (w : World) :
  staysMounted evs = true -> apiListeners (run evs w) = apiListeners w.
Proof.
  revert w. induction evs as [| e evs IH]; intros w Hevs; simpl in *.
  - reflexivity.
  - apply andb_true_iff in Hevs. destruct Hevs as [He Hevs].
    rewrite (IH _ Hevs). apply step_registry.
    destruct (isUnmount e); [discriminate | reflexivity].
Qed.

Lemma visibleIsBool_frame (w w' : World) :
  frame w w' -> visibleIsBool w -> visibleIsBool w'.
Proof.
  unfold frame, visibleIsBool. intros (Hv & _) [b Hb].
  exists b. congruence.
Qed.

Lemma setState_visible_bool (b : bool) (w : World) :
  visibleIsBool w -> visibleIsBool (setState [(Kvisible, JBool b)] w).
Proof.
  intros Hw. unfold setState.
  destruct (negb (mounted w) && discardsUnmountedUpdates); [exact Hw |].
  exists b. reflexivity.
Qed.

Lemma dispatch_visibleIsBool (type : string) (w : World) :
  visibleIsBool w -> visibleIsBool (dispatch type w).
Proof.
  unfold dispatch.
  generalize (filter (fun r : string * WindowListener => String.eqb (fst r) type)
                (windowListeners w)).
  intros ls. revert w.
  induction ls as [| [t []] ls IH]; intros w Hw; simpl.
  - exact Hw.
  - apply IH. unfold _mouseMove.
    destruct (negb (truthy (visible (state w))));
      [apply setState_visible_bool, Hw | exact Hw].
Qed.

Lemma step_visibleIsBool (e : Event) (w : World) :
  visibleIsBool w -> visibleIsBool (step e w).
Proof.
  intros Hw. destruct e; simpl.
  - apply dispatch_visibleIsBool, Hw.
  - destruct (mounted w); exact Hw.
  - destruct (mounted w); exact Hw.
  - exact Hw.
  - destruct (timers w) as [| deadline rest]; [exact Hw |].
    destruct (deadline <=? clock w); [| exact Hw].
    unfold hideToolbarCallback. simpl.
    destruct (_hovered w); [exact Hw |].
    apply setState_visible_bool. exact Hw.
  - eapply visibleIsBool_frame; [apply emit_frame | exact Hw].
  - destruct (queryPending w); [| exact Hw].
    eapply visibleIsBool_frame; [apply queryFulfilled_frame | exact Hw].
  - destruct (queryPending w); exact Hw.
  - destruct (mounted w); exact Hw.
Qed.

Lemma run_visibleIsBool (evs : list Event) (w : World) :
  visibleIsBool w -> visibleIsBool (run evs w).
Proof.
  revert w. induction evs as [| e evs IH]; intros w Hw; simpl.
  - exact Hw.
  - apply IH, step_visibleIsBool, Hw.
Qed.

Lemma shownWithTimer_frame (w w' : World) :
  frame w w' -> shownWithTimer w -> shownWithTimer w'.
Proof.
  unfold frame, shownWithTimer. intros (Hv & Ht & _) H.
  rewrite Hv, Ht. exact H.
Qed.

Lemma step_shownWithTimer (e : Event) (w : World) :
  isUnmount e = false -> active w -> shownWithTimer w ->
  shownWithTimer (step e w).
Proof.
  intros He Hact Hs. destruct e; simpl; try discriminate.
  - rewrite (dispatch_mousemove_active w Hact). unfold _mouseMove.
    destruct (truthy (visible (state w))) eqn:Hvis; simpl; [exact Hs |].
    destruct Hact as [Hm _].
    unfold setState, componentWillUpdate. rewrite Hm, Hvis. simpl.
    unfold shownWithTimer. simpl. intros _ Habs.
    apply app_eq_nil in Habs. destruct Habs as [_ Habs]. discriminate.
  - destruct (mounted w); exact Hs.
  - destruct (mounted w); exact Hs.
  - exact Hs.
  - destruct (timers w) as [| deadline rest] eqn:Ht; [exact Hs |].
    destruct (deadline <=? clock w).
    + unfold hideToolbarCallback. simpl.
      destruct (_hovered w).
      * unfold shownWithTimer. simpl. intros _ Habs.
        apply app_eq_nil in Habs. destruct Habs as [_ Habs]. discriminate.
      * destruct Hact as [Hm _].
        unfold setState, componentWillUpdate. simpl. rewrite Hm. simpl.
        rewrite andb_false_r.
        unfold shownWithTimer. simpl. discriminate.
    + unfold shownWithTimer. rewrite Ht. discriminate.
  - eapply shownWithTimer_frame; [apply emit_frame | exact Hs].
  - destruct (queryPending w); [| exact Hs].
    eapply shownWithTimer_frame; [apply queryFulfilled_frame | exact Hs].
  - destruct (queryPending w); exact Hs.
Qed.

Lemma run_shownWithTimer (evs : list Event) (w : World) :
  staysMounted evs = true -> active w -> shownWithTimer w ->
  shownWithTimer (run evs w).
Proof.
  revert w. induction evs as [| e evs IH]; intros w Hevs Hact Hs; simpl in *.
  - exact Hs.
  - apply andb_true_iff in Hevs. destruct Hevs as [He Hevs].
    assert (He' : isUnmount e = false)
      by (destruct (isUnmount e); [discriminate | reflexivity]).
    apply IH; [exact Hevs | apply step_active; assumption |].
    apply step_shownWithTimer; assumption.
Qed.

Lemma reachable_shown (t0 : N) (evs : list Event) :
  staysMounted evs = true ->
  shownWithTimer (run evs (activate t0)) /\
  visibleIsBool (run evs (activate t0)) /\
  apiListeners (run evs (activate t0)) = mountRegistrations.
Proof.
  intros Hevs. split; [| split].
  - apply run_shownWithTimer; [exact Hevs | apply activate_active |].
    unfold shownWithTimer. simpl. discriminate.
  - apply run_visibleIsBool. exists true. reflexivity.
  - rewrite (run_registry evs _ Hevs). reflexivity.
Qed.

(** While the component stays mounted the machine is in one of two shapes:
    visible with exactly one timer pending, or hidden with none. *)
Lemma reachable_shape (t0 : N) (evs : list Event) :
  staysMounted evs = true ->
  let w := run evs (activate t0) in
  (visible (state w) = JBool true /\
   exists deadline, timers w = [deadline] /\
                    deadline <= clock w + TOOLBAR_TIMEOUT) \/
  (visible (state w) = JBool false /\ timers w = []).
Proof.
  intros Hevs w.
  destruct (reachable_inv t0 evs Hevs) as [_ Hinv].
  destruct (reachable_shown t0 evs Hevs) as (Hs & [b Hb] & _).
  fold w in Hinv, Hs, Hb. destruct b.
  - left. split; [exact Hb |].
    destruct (timers w) as [| deadline rest] eqn:Ht.
    + exfalso. apply Hs; [rewrite Hb; reflexivity | exact Ht].
    + destruct (timers_at_most_one w deadline rest Hinv Ht) as (-> & _ & Hd).
      exists deadline. split; [reflexivity | exact Hd].
  - right. split; [exact Hb |].
    destruct Hinv as (_ & H2 & _). apply H2. rewrite Hb. reflexivity.
Qed.

(** *** The properties *)

(** X1: media events never touch the visibility machine.  Whatever the
    world, the topic, the payload and the results, an API event and the
    fulfilment of the initial query leave [visible], the pending timers and
    the hover flag as they were: no listener shows or hides the toolbar or
    arms a timer. *)
Theorem media_events_leave_visibility_alone (w : World) (topic : string)
    (payload : Obj) (results : list jsval) :
  let a := step (EApi topic payload) w in
  let q := step (EQueryResolved results) w in
  (visible (state a) = visible (state w) /\ timers a = timers w /\
   _hovered a = _hovered w) /\
  (visible (state q) = visible (state w) /\ timers q = timers w /\
   _hovered q = _hovered w).
Proof.
  simpl. split.
  - destruct (emit_frame topic payload w) as (Hv & Ht & _ & _ & _ & Hh).
    auto.
  - destruct (queryPending w); [| auto].
    destruct (queryFulfilled_frame results (set_queryPending false w))
      as (Hv & Ht & _ & _ & _ & Hh).
    auto.
Qed.

(** X2: [visible] is always a boolean.  After any sequence of events from
    activation on, payloads with undefined fields and the unmounting
    included, [this.state.visible] is [true] or [false], never
    [undefined]. *)
Theorem visible_is_always_boolean (t0 : N) (evs : list Event) :
  exists b : bool, visible (state (run evs (activate t0))) = JBool b.
Proof. apply run_visibleIsBool. exists true. reflexivity. Qed.

(** X3: while the component stays mounted, the toolbar is shown exactly
    while a hide-timer is pending.  Either [visible] is [true], exactly one
    timer is pending, due at most [TOOLBAR_TIMEOUT] from now, and the
    toolbar is rendered with the class [fadeIn]; or [visible] is [false], no
    timer is pending and the class is [fadeOut]. *)
Theorem shown_exactly_while_timer_pending (t0 : N) (evs : list Event) :
  staysMounted evs = true ->
  let w := run evs (activate t0) in
  (visible (state w) = JBool true /\
   (exists deadline, timers w = [deadline] /\
                     deadline <= clock w + TOOLBAR_TIMEOUT) /\
   className (render (state w)) = "toolbar_primary fadeIn") \/
  (visible (state w) = JBool false /\ timers w = [] /\
   className (render (state w)) = "toolbar_primary fadeOut").
Proof.
  intros Hevs w.
  destruct (reachable_shape t0 evs Hevs) as [(Hv & Ht) | (Hv & Ht)];
    fold w in Hv, Ht; [left | right]; (split; [exact Hv | split; [exact Ht |]]);
    unfold render; simpl; rewrite Hv; reflexivity.
Qed.

(** X4: the toolbar hides once the pointer has left it.  In any world
    reached while the component stays mounted, if the pointer leaves the
    toolbar, at least [TOOLBAR_TIMEOUT] ms pass and the event loop runs the
    timer, the toolbar is hidden and no timer is pending. *)
Theorem hides_once_pointer_left (t0 : N) (evs : list Event) (dt : N) :
  staysMounted evs = true ->
  TOOLBAR_TIMEOUT <= dt ->
  hidden (run [EMouseOut; EElapse dt; ETimerFire] (run evs (activate t0))).
Proof.
  intros Hevs Hdt.
  destruct (reachable_inv t0 evs Hevs) as [[Hm _] _].
  pose proof (reachable_shape t0 evs Hevs) as Hshape. cbv zeta in Hshape.
  revert Hm Hshape. generalize (run evs (activate t0)). intros w Hm Hshape.
  destruct Hshape as [(Hv & deadline & Ht & Hd) | (Hv & Ht)].
  - assert (Hdue : (deadline <=? clock w + dt) = true)
      by (apply N.leb_le; lia).
    unfold run. simpl. rewrite Hm. simpl. rewrite Ht, Hdue.
    unfold hideToolbarCallback, setState, componentWillUpdate. simpl.
    rewrite Hm. simpl. rewrite andb_false_r. split; reflexivity.
  - unfold run. simpl. rewrite Hm. simpl. rewrite Ht. split; assumption.
Qed.

(** X5: the fulfilled initial query overwrites the four media fields.  For
    a mounted component whose query is pending, the four fields become the
    four results, [undefined] replaced by [false], whatever they held from
    earlier events; all four are then booleans; [visible] and the timers are
    kept; the component renders once; and the query is no longer pending. *)
Theorem query_fulfilment_overwrites_media (w : World) (results : list jsval) :
  mounted w = true ->
  queryPending w = true ->
  let w' := step (EQueryResolved results) w in
  state w' =
    mkState (visible (state w))
      (withDefault (JBool false) (nth 0 results JUndefined))
      (withDefault (JBool false) (nth 1 results JUndefined))
      (withDefault (JBool false) (nth 2 results JUndefined))
      (withDefault (JBool false) (nth 3 results JUndefined)) /\
  (exists am vm ae ve : bool,
     state w' = mkState (visible (state w)) (JBool am) (JBool vm) (JBool ae)
                  (JBool ve)) /\
  timers w' = timers w /\
  renders w' = S (renders w) /\
  queryPending w' = false.
Proof.
  intros Hm Hq. simpl. rewrite Hq.
  unfold queryFulfilled, setState, componentWillUpdate. simpl. rewrite Hm.
  simpl. rewrite andb_negb_l. simpl.
  repeat split.
  assert (Hbool : forall v, exists b, withDefault (JBool false) v = JBool b).
  { intros [| b]; [exists false | exists b]; reflexivity. }
  destruct (Hbool (nth 0 results JUndefined)) as [am ->].
  destruct (Hbool (nth 1 results JUndefined)) as [vm ->].
  destruct (Hbool (nth 2 results JUndefined)) as [ae ->].
  destruct (Hbool (nth 3 results JUndefined)) as [ve ->].
  exists am, vm, ae, ve. reflexivity.
Qed.

(** X6: the audio-mute, video-mute and audio-availability listeners update
    one field each.  On a mounted component each of them writes the payload
    field it reads into its own field of the state and renders once; the
    other fields, the timers, the hover flag and the rest of the world are
    unchanged. *)
Theorem listeners_update_one_field (status : Obj) (w : World) :
  mounted w = true ->
  _audioMutedListener status w =
    set_renders (S (renders w))
      (set_state (setField KaudioMuted (getProp "muted" status) (state w)) w) /\
  _videoMutedListener status w =
    set_renders (S (renders w))
      (set_state (setField KvideoMuted (getProp "muted" status) (state w)) w) /\
  _audioEnabledListener status w =
    set_renders (S (renders w))
      (set_state (setField KaudioEnabled (getProp "enabled" status) (state w))
         w).
Proof.
  intros Hm.
  unfold _audioMutedListener, _videoMutedListener, _audioEnabledListener,
    setState, componentWillUpdate.
  rewrite Hm. simpl. rewrite andb_negb_l. repeat split.
Qed.

(** X7: [render] hands the descriptors on untouched.  Whatever the state,
    each rendered button keeps the class names, the id and the click handler
    of its descriptor, and the click handler given to the button element is
    that same handler: the state decides [enabled] and [toggled] only. *)
Theorem render_keeps_descriptors (s : State) :
  map (fun e => (key e, classNames (button e), id_ (button e),
                 onClick (button e), elementOnClick e))
    (children (render s))
  = map (fun entry => (fst entry, classNames (snd entry), id_ (snd entry),
                       onClick (snd entry), onClick (snd entry)))
      toolbarButtons.
Proof.
  change (children (render s)) with (map (renderButton s) toolbarButtons).
  rewrite map_map.
  apply map_ext. intros [k b]. unfold renderButton.
  destruct (String.eqb k "microphone"); [reflexivity |].
  destruct (String.eqb k "camera"); reflexivity.
Qed.

(** X8: the flags of the buttons for any state, undefined fields included.
    The microphone is rendered with [enabled] the raw [audioEnabled] value
    and with [toggled] the raw [audioMuted] value when [audioEnabled] is
    truthy and [true] otherwise, and the camera likewise; so an undefined
    availability gives [enabled] undefined and [toggled] true, and a true
    availability with an undefined mute flag gives [toggled] undefined.  The
    hangup button is rendered with [true] and [false] whatever the state. *)
Theorem render_flags_of_any_state (s : State) :
  flags "microphone" s =
    Some (audioEnabled s,
          if truthy (audioEnabled s) then audioMuted s else JBool true) /\
  flags "camera" s =
    Some (videoEnabled s,
          if truthy (videoEnabled s) then videoMuted s else JBool true) /\
  flags "hangup" s = Some (JBool true, JBool false) /\
  (forall v am vm ve,
     flags "microphone" (mkState v am vm JUndefined ve)
     = Some (JUndefined, JBool true)) /\
  (forall v vm ve,
     flags "microphone" (mkState v JUndefined vm (JBool true) ve)
     = Some (JBool true, JUndefined)).
Proof. repeat split. Qed.

(** X9: unmounting removes the pointer listener.  After the unmounting of a
    component that had stayed mounted, the window holds no listener, and
    pointer moves, however many, change nothing, even if the toolbar was
    hidden. *)
Theorem unmount_removes_pointer_listener (t0 : N) (evs : list Event)
    (n : nat) :
  staysMounted evs = true ->
  let u := step EUnmount (run evs (activate t0)) in
  windowListeners u = [] /\ run (repeat EMouseMove n) u = u.
Proof.
  intros Hevs u.
  destruct (reachable_inv t0 evs Hevs) as [[Hm Hw] _].
  assert (Hnone : windowListeners u = []).
  { unfold u. simpl. rewrite Hm. simpl. rewrite Hw. reflexivity. }
  split; [exact Hnone |].
  induction n as [| n IH]; [reflexivity |].
  simpl. unfold dispatch. rewrite Hnone. simpl. exact IH.
Qed.

(** X10: each API event reaches one listener, once.  In any world reached
    while the component stays mounted, the API holds exactly the four
    registrations made at mounting: an event of one of the four topics runs
    the listener subscribed to it, once, and an event of any other topic
    changes nothing.  After the unmounting the two mute events change
    nothing any more. *)
Theorem api_events_reach_one_listener (t0 : N) (evs : list Event)
    (payload : Obj) :
  staysMounted evs = true ->
  let w := run evs (activate t0) in
  let u := step EUnmount w in
  apiListeners w = mountRegistrations /\
  (step (EApi "audioMuteStatusChanged" payload) w
     = _audioMutedListener payload w /\
   step (EApi "videoMuteStatusChanged" payload) w
     = _videoMutedListener payload w /\
   step (EApi "audioEnabledStatusChanged" payload) w
     = _audioEnabledListener payload w /\
   step (EApi "videoEnabledStatusChanged" payload) w
     = _videoEnabledListener payload w) /\
  (forall topic : string,
     existsb (fun r => String.eqb (fst r) topic) mountRegistrations = false ->
     step (EApi topic payload) w = w) /\
  (step (EApi "audioMuteStatusChanged" payload) u = u /\
   step (EApi "videoMuteStatusChanged" payload) u = u).
Proof.
  intros Hevs w u.
  destruct (reachable_inv t0 evs Hevs) as [[Hm _] _].
  destruct (reachable_shown t0 evs Hevs) as (_ & _ & Hreg).
  fold w in Hm, Hreg.
  assert (Hu : apiListeners u =
               [("audioEnabledStatusChanged", L_audioEnabledListener);
                ("videoEnabledStatusChanged", L_videoEnabledListener)]).
  { unfold u. simpl. rewrite Hm. simpl. rewrite Hreg. reflexivity. }
  split; [exact Hreg |]. split; [| split].
  - simpl. unfold emit. rewrite Hreg. repeat split.
  - intros topic Hno.
    change (step (EApi topic payload) w) with (emit topic payload w).
    unfold emit. rewrite Hreg.
    unfold mountRegistrations in *. cbn [existsb fst] in Hno.
    repeat (apply orb_false_iff in Hno; destruct Hno as [? Hno]).
    cbn [filter fst].
    repeat match goal with H : String.eqb _ _ = false |- _ =>
             rewrite H; clear H end.
    reflexivity.
  - simpl. unfold emit. rewrite Hu. split; reflexivity.
Qed.

(** X11: a component unmounted under the pointer keeps its timer alive for
    ever.  If the pointer is over the toolbar of a component that has stayed
    mounted and a timer is pending, then after the unmounting every timer
    period ends with the timer replaced by a fresh one: after any number of
    periods exactly one timer is still pending, and the state is as it was
    left. *)
Theorem hovered_unmount_rearms_forever (t0 : N) (evs : list Event)
    (deadline : N) (n : nat) :
  staysMounted evs = true ->
  let w := run evs (activate t0) in
  _hovered w = true ->
  timers w = [deadline] ->
  let u := step EUnmount w in
  let later := run (periods (S n)) u in
  timers later =
    [clock w + N.of_nat (S n) * TOOLBAR_TIMEOUT + TOOLBAR_TIMEOUT] /\
  state later = state w /\
  _hovered later = true.
Proof.
  intros Hevs w Hh Ht u later.
  destruct (reachable_inv t0 evs Hevs) as [[Hm _] Hinv]. fold w in Hm, Hinv.
  destruct (timers_at_most_one w deadline [] Hinv Ht) as (_ & _ & Hd).
  assert (Hu : _hovered u = true /\ timers u = [deadline] /\
               clock u = clock w /\ state u = state w).
  { unfold u. simpl. rewrite Hm. simpl. auto. }
  destruct Hu as (Hhu & Htu & Hcu & Hsu).
  unfold later.
  rewrite (periods_hovered n u deadline Hhu Htu); [| rewrite Hcu; exact Hd].
  simpl. rewrite Hcu. auto.
Qed.

(** X12: a burst of pointer moves counts as one.  In any world reached
    while the component stays mounted, any number of pointer moves in a row
    leaves the world exactly as the first of them does: a hidden toolbar is
    shown with one timer and one render, however many moves follow. *)
Theorem pointer_moves_coalesce (t0 : N) (evs : list Event) (n : nat) :
  staysMounted evs = true ->
  let w := run evs (activate t0) in
  run (repeat EMouseMove (S n)) w = step EMouseMove w.
Proof.
  intros Hevs w.
  destruct (reachable_inv t0 evs Hevs) as [Hact _]. fold w in Hact.
  assert (Hshown : forall v : World,
            active v -> truthy (visible (state v)) = true ->
            step EMouseMove v = v).
  { intros v Hv Hvis. simpl. rewrite (dispatch_mousemove_active v Hv).
    unfold _mouseMove. rewrite Hvis. reflexivity. }
  assert (Hfirst : active (step EMouseMove w) /\
                   truthy (visible (state (step EMouseMove w))) = true).
  { split; [apply step_active; [reflexivity | exact Hact] |].
    simpl. rewrite (dispatch_mousemove_active w Hact).
    unfold _mouseMove.
    destruct (truthy (visible (state w))) eqn:Hvis; simpl; [exact Hvis |].
    destruct Hact as [Hm _].
    unfold setState, componentWillUpdate. rewrite Hm, Hvis. reflexivity. }
  destruct Hfirst as [Hact1 Hvis1].
  change (run (repeat EMouseMove (S n)) w)
    with (run (repeat EMouseMove n) (step EMouseMove w)).
  induction n as [| n IH]; [reflexivity |].
  change (run (repeat EMouseMove (S n)) (step EMouseMove w))
    with (run (repeat EMouseMove n) (step EMouseMove (step EMouseMove w))).
  rewrite (Hshown _ Hact1 Hvis1). exact IH.
Qed.

End Component.

(** ** Concrete runs

    The statements below are closed: they are runs of the program, in which
    React discards the updates to an unmounted component. *)

(** C3 (the claim does not hold): the hide-timer outlives the component.
    Activate at time 0 and unmount at once: the timer due at 4000 has not
    been cancelled.  Let 4000 ms pass and let the event loop run the timer:
    it runs against the unmounted component, and is gone from the queue.
    Had the pointer been over the toolbar at the unmounting, it would have
    armed the next timer, due at 8000. *)
Lemma hide_timer_runs_after_unmount :
  let u := run true [EUnmount] (activate 0) in
  let h := run true [EMouseOver; EUnmount] (activate 0) in
  (mounted u = false /\ timers u = [4000] /\
   timers (run true [EElapse 4000; ETimerFire] u) = []) /\
  (mounted h = false /\ timers h = [4000] /\
   timers (run true [EElapse 4000; ETimerFire] h) = [8000]).
Proof. vm_compute. repeat split. Qed.

Lemma unmount_keeps_hide_timer_witness :
  mounted (activate 0) = true /\
  timers (activate 0) = [4000] /\
  4000 <= clock (activate 0) + 4000 /\
  step true ETimerFire (step true (EElapse 4000) (step true EUnmount (activate 0)))
  = setState true [(Kvisible, JBool false)]
      (set_timers [] (step true (EElapse 4000) (step true EUnmount (activate 0)))) /\
  visible
    (state (run true [EElapse 4000; ETimerFire] (step true EUnmount (activate 0))))
  = visible (state (activate 0)).
Proof.
  split; [reflexivity |]. split; [reflexivity |]. split; [vm_compute; discriminate |].
  destruct (unmount_keeps_hide_timer true (activate 0) 4000 [] 4000
              eq_refl eq_refl ltac:(vm_compute; discriminate))
    as (_ & _ & Haway & Hkept).
  split.
  - apply Haway. reflexivity.
  - apply (Hkept eq_refl [EElapse 4000; ETimerFire]).
Defined.

(** C8 (the claim does not hold): [undefined] reaches the state.  After the
    API has reported the audio muted, an [audioMuteStatusChanged] event
    whose payload has no [muted] field, or has it undefined, leaves
    [audioMuted] undefined, not [false]; the same happens to
    [audioEnabled]. *)
Lemma undefined_payload_reaches_state :
  let w := run true
             [EApi "audioMuteStatusChanged" [("muted", JBool true)];
              EApi "audioEnabledStatusChanged" [("enabled", JBool true)]]
             (activate 0) in
  (audioMuted (state w) = JBool true /\ audioEnabled (state w) = JBool true) /\
  audioMuted (state (step true (EApi "audioMuteStatusChanged" []) w))
    = JUndefined /\
  audioMuted
    (state (step true (EApi "audioMuteStatusChanged" [("muted", JUndefined)]) w))
    = JUndefined /\
  audioEnabled
    (state (step true (EApi "audioEnabledStatusChanged" [("enabled", JUndefined)]) w))
    = JUndefined.
Proof. vm_compute. repeat split. Qed.

Lemma listeners_store_payload_as_received_witness :
  mounted (activate 0) = true /\
  audioMuted (state (_audioMutedListener true [] (activate 0))) = JUndefined.
Proof.
  split; [reflexivity |].
  apply (listeners_store_payload_as_received true [] (activate 0)).
  reflexivity.
Defined.

Lemma pointer_move_witness :
  let w := run true [EElapse 4000; ETimerFire] (activate 0) in
  staysMounted [EElapse 4000; ETimerFire] = true /\
  truthy (visible (state w)) = false /\
  step true EMouseMove w =
    set_renders (S (renders w))
      (set_state (setField Kvisible (JBool true) (state w))
         (set_timers [clock w + TOOLBAR_TIMEOUT] w)).
Proof.
  intros w.
  split; [reflexivity |]. split; [vm_compute; reflexivity |].
  apply (proj1 (pointer_move true 0 [EElapse 4000; ETimerFire] eq_refl)).
  vm_compute; reflexivity.
Defined.

Lemma hide_timer_fires_witness :
  staysMounted [EMouseOver; EElapse 4000] = true /\
  timers (run true [EMouseOver; EElapse 4000] (activate 0)) = [4000] /\
  step true ETimerFire (run true [EMouseOver; EElapse 4000] (activate 0))
  = set_timers [8000] (run true [EMouseOver; EElapse 4000] (activate 0)).
Proof.
  split; [reflexivity |]. split; [vm_compute; reflexivity |].
  destruct (hide_timer_fires true 0 [EMouseOver; EElapse 4000] 4000 []
              eq_refl ltac:(vm_compute; reflexivity))
    as (_ & _ & Hfire & _).
  rewrite Hfire; [vm_compute; reflexivity | vm_compute; discriminate | vm_compute; reflexivity].
Defined.

Lemma shown_exactly_while_timer_pending_witness :
  staysMounted [EElapse 4000; ETimerFire] = true /\
  className (render (state (run true [EElapse 4000; ETimerFire] (activate 0))))
  = "toolbar_primary fadeOut".
Proof.
  split; [reflexivity |].
  destruct (shown_exactly_while_timer_pending true 0 [EElapse 4000; ETimerFire]
              eq_refl) as [(Hv & _) | (_ & _ & Hc)].
  - exfalso. revert Hv. vm_compute. discriminate.
  - exact Hc.
Defined.

Lemma hides_once_pointer_left_witness :
  staysMounted [EMouseOver; EElapse 1000] = true /\
  TOOLBAR_TIMEOUT <= 5000 /\
  hidden
    (run true [EMouseOut; EElapse 5000; ETimerFire]
       (run true [EMouseOver; EElapse 1000] (activate 0))).
Proof.
  split; [reflexivity |]. split; [vm_compute; discriminate |].
  apply (hides_once_pointer_left true 0 [EMouseOver; EElapse 1000] 5000).
  - reflexivity.
  - vm_compute; discriminate.
Defined.

Lemma query_fulfilment_overwrites_media_witness :
  mounted (activate 0) = true /\
  queryPending (activate 0) = true /\
  state (step true (EQueryResolved [JBool true; JUndefined; JBool true])
           (activate 0))
  = mkState (JBool true) (JBool true) (JBool false) (JBool true) (JBool false).
Proof.
  split; [reflexivity |]. split; [reflexivity |].
  apply (query_fulfilment_overwrites_media true (activate 0)
           [JBool true; JUndefined; JBool true]); reflexivity.
Defined.

Lemma listeners_update_one_field_witness :
  mounted (activate 0) = true /\
  _audioEnabledListener true [("enabled", JBool true)] (activate 0)
  = set_renders 2%nat
      (set_state
         (mkState (JBool true) (JBool false) (JBool false) (JBool true)
            (JBool false)) (activate 0)).
Proof.
  split; [reflexivity |].
  apply (listeners_update_one_field true [("enabled", JBool true)] (activate 0)).
  reflexivity.
Defined.

Lemma unmount_removes_pointer_listener_witness :
  staysMounted [EElapse 4000; ETimerFire] = true /\
  run true (repeat EMouseMove 3)
    (step true EUnmount (run true [EElapse 4000; ETimerFire] (activate 0)))
  = step true EUnmount (run true [EElapse 4000; ETimerFire] (activate 0)).
Proof.
  split; [reflexivity |].
  apply (unmount_removes_pointer_listener true 0 [EElapse 4000; ETimerFire] 3).
  reflexivity.
Defined.

Lemma api_events_reach_one_listener_witness :
  staysMounted [EMouseOver] = true /\
  apiListeners (run true [EMouseOver] (activate 0)) = mountRegistrations.
Proof.
  split; [reflexivity |].
  apply (api_events_reach_one_listener true 0 [EMouseOver] []).
  reflexivity.
Defined.

Lemma hovered_unmount_rearms_forever_witness :
  staysMounted [EMouseOver] = true /\
  _hovered (run true [EMouseOver] (activate 0)) = true /\
  timers (run true [EMouseOver] (activate 0)) = [4000] /\
  timers (run true (periods 3)
            (step true EUnmount (run true [EMouseOver] (activate 0))))
  = [16000].
Proof.
  split; [reflexivity |].
  split; [vm_compute; reflexivity |]. split; [vm_compute; reflexivity |].
  apply (hovered_unmount_rearms_forever true 0 [EMouseOver] 4000 2).
  - reflexivity.
  - vm_compute; reflexivity.
  - vm_compute; reflexivity.
Defined.

Lemma pointer_moves_coalesce_witness :
  staysMounted [EElapse 4000; ETimerFire] = true /\
  run true (repeat EMouseMove 5)
    (run true [EElapse 4000; ETimerFire] (activate 0))
  = step true EMouseMove (run true [EElapse 4000; ETimerFire] (activate 0)).
Proof.
  split; [reflexivity |].
  apply (pointer_moves_coalesce true 0 [EElapse 4000; ETimerFire] 4).
  reflexivity.
Defined.
